(** * jina.peapods.peas : the lifecycle of a [BasePea]

    A shallow embedding of [BasePea] (src/jina/peapods/peas/__init__.py):
    the body [run] that drives a runtime inside the worker, the selection of
    the runtime class, the environment variables set and unset around the
    runtime, and the two methods the owner of the Pea calls from outside,
    [wait_start_success] and [close]. *)

From Stdlib Require Import ZArith String List Bool Lia.
From stdpp Require Import base gmap strings list fin_maps.

Local Open Scope Z_scope.
Local Open Scope string_scope.
Local Open Scope list_scope.

(** ** Exceptions *)

(** The exception classes the module raises, catches or can meet.
    [RuntimeFailToStart] and [RuntimeTerminated] come from [jina.excepts];
    the others are builtins. [OtherException] stands for any other subclass
    of [Exception] a runtime may raise. *)
Inductive exn :=
| RuntimeFailToStart
| RuntimeTerminated
| KeyboardInterrupt
| SystemExit
| SystemError
| UnboundLocalError
| TypeError
| TimeoutError
| OtherException (name : string).

(** [jina.excepts] is not part of the sources at hand: whether its two
    classes derive from [Exception] is left open. *)
Class Excepts := {
  RuntimeFailToStart_is_Exception : bool;
  RuntimeTerminated_is_Exception : bool
}.

(** [isinstance(e, Exception)]. [KeyboardInterrupt] and [SystemExit] derive
    from [BaseException] only. *)
Definition is_Exception `{Excepts} (e : exn) : bool :=
  match e with
  | RuntimeFailToStart => RuntimeFailToStart_is_Exception
  | RuntimeTerminated => RuntimeTerminated_is_Exception
  | KeyboardInterrupt | SystemExit => false
  | SystemError | UnboundLocalError | TypeError | TimeoutError
  | OtherException _ => true
  end.

(** The outcome of a call: it returns or it raises. *)
Inductive result (A : Type) :=
| Ok (a : A)
| Raise (e : exn).
Arguments Ok {A} a.
Arguments Raise {A} e.

(** ** Configuration *)

Inductive RuntimeBackendType := THREAD | PROCESS.

Inductive SocketType := DEALER_CONNECT | OTHER_SOCKET (name : string).

#[global] Instance RuntimeBackendType_eq_dec : EqDecision RuntimeBackendType.
Proof. solve_decision. Defined.

#[global] Instance SocketType_eq_dec : EqDecision SocketType.
Proof. solve_decision. Defined.

(** The fields of [args] the module reads. [timeout_ready] and
    [timeout_ctrl] are in milliseconds. *)
Record Args := {
  runtime_backend : RuntimeBackendType;
  name : option string;
  identity : string;
  quiet : bool;
  quiet_error : bool;
  env : option (gmap string string);
  daemon : bool;
  host : string;
  port_ctrl : Z;
  ctrl_with_ipc : bool;
  runtime_cls : string;
  uses : string;
  socket_in : SocketType;
  timeout_ready : Z;
  timeout_ctrl : Z;
  noblock_on_start : bool
}.

Definition set_runtime_cls (a : Args) (cls : string) : Args :=
  {| runtime_backend := runtime_backend a; name := name a;
     identity := identity a; quiet := quiet a; quiet_error := quiet_error a;
     env := env a; daemon := daemon a; host := host a;
     port_ctrl := port_ctrl a; ctrl_with_ipc := ctrl_with_ipc a;
     runtime_cls := cls; uses := uses a; socket_in := socket_in a;
     timeout_ready := timeout_ready a; timeout_ctrl := timeout_ctrl a;
     noblock_on_start := noblock_on_start a |}.

(** Truth value of an optional string ([None] and [''] are false). *)
Definition str_or (s : option string) (dflt : string) : string :=
  match s with
  | Some s' => if decide (s' = "") then dflt else s'
  | None => dflt
  end.

(** Truth value of an optional dict ([None] and [{}] are false). *)
Definition dict_truthy (d : option (gmap string string)) : bool :=
  match d with
  | Some m => negb (bool_decide (m = ∅))
  | None => false
  end.

(** [self.name = self.args.name or self.__class__.__name__] *)
Definition pea_name (a : Args) : string := str_or (name a) "BasePea".

(** [self._envs], as [__init__] fills it: [dict.update] lets the entries of
    [args.env] override the ones set before. *)
Definition init_envs (a : Args) : gmap string string :=
  let envs0 : gmap string string :=
    <["JINA_LOG_ID" := identity a]> (<["JINA_POD_NAME" := pea_name a]> ∅) in
  let envs1 := if quiet a then <["JINA_LOG_CONFIG" := "QUIET"]> envs0 else envs0 in
  if dict_truthy (env a) then default ∅ (env a) ∪ envs1 else envs1.

(** ** Runtime selection *)

Section RuntimeSelection.
(** [__default_host__] and [get_runtime] are imported from modules that are
    not at hand: a constant, and a lookup of a class by name that raises on
    an unknown name. *)
Context {RuntimeCls : Type}.
Variable __default_host__ : string.
Variable get_runtime : string -> result RuntimeCls.

(** [_get_runtime_cls]: returns the class and [is_remote_controlled], or
    what [get_runtime] raised, together with [args] as the method leaves
    it ([args.runtime_cls] is assigned in place). *)
Definition _get_runtime_cls (a : Args) : result (RuntimeCls * bool) * Args :=
  let is_remote_controlled := false in
  let '(a, is_remote_controlled) :=
    if negb (bool_decide (host a = __default_host__))
    then (set_runtime_cls a "JinadRuntime", true)
    else (a, is_remote_controlled) in
  let a :=
    if bool_decide (runtime_cls a = "ZEDRuntime")
       && String.prefix "docker://" (uses a)
    then set_runtime_cls a "ContainerRuntime"
    else a in
  match get_runtime (runtime_cls a) with
  | Ok v => (Ok (v, is_remote_controlled), a)
  | Raise e => (Raise e, a)
  end.
End RuntimeSelection.

(** The Pea object after [__init__]: the attributes [run], [close] and
    [wait_start_success] read. *)
Record Pea := {
  args : Args;
  _envs : gmap string string;
  _is_remote_controlled : bool;
  _runtime_ctrl_addr : string;
  _remote_ctrl_addr : string;
  _timeout_ctrl : Z
}.

Section Init.
Context {RuntimeCls : Type}.
Variable __default_host__ : string.
Variable get_runtime : string -> result RuntimeCls.
(** [Zmqlet.get_ctrl_address(host, port, ipc)[0]], from a module that is not
    at hand. *)
Variable get_ctrl_address : option string -> option Z -> bool -> string.

Definition __init__ (a : Args) : result Pea :=
  let envs := init_envs a in
  match _get_runtime_cls __default_host__ get_runtime a with
  | (Raise e, _) => Raise e
  | (Ok (_, is_remote_controlled), a) =>
      Ok {| args := a;
            _envs := envs;
            _is_remote_controlled := is_remote_controlled;
            _runtime_ctrl_addr :=
              get_ctrl_address (Some (host a)) (Some (port_ctrl a)) (ctrl_with_ipc a);
            _remote_ctrl_addr := get_ctrl_address None None true;
            _timeout_ctrl := timeout_ctrl a |}
  end.
End Init.

(** ** Logging *)

Inductive level := INFO | WARNING | ERROR | CRITICAL | SUCCESS.

(** The attribute an error message names after [during]. *)
Inductive culprit :=
| runtime_setup | runtime_cls_init | runtime_run_forever | runtime_teardown
| runtime_cls_cancel.

Inductive message :=
| msg_starting
| msg_during (ex : exn) (what : culprit)
| msg_empty
| msg_is_end
| msg_interrupted
| msg_env_thread
| msg_timeout
| msg_fail_to_start
| msg_ready
| msg_stop.

(** ** The worker: state, events, and a state-and-exception monad *)

(** What can be observed of the worker at one point: the flags of the two
    events, the mapping [os.environ], and the environment of the process
    itself (what [putenv] and [unsetenv] act on). *)
Record Snapshot := {
  is_ready : bool;
  is_shutdown : bool;
  os_environ : gmap string string;
  process_env : gmap string string
}.

Inductive event :=
| Construct
| Setup
| RunForever
| Teardown
| ReadySet
| ReadyClear
| ShutdownSet
| SetEnvs
| UnsetEnvs
| Log (l : level) (m : message).

#[global] Instance exn_eq_dec : EqDecision exn.
Proof. solve_decision. Defined.
#[global] Instance level_eq_dec : EqDecision level.
Proof. solve_decision. Defined.
#[global] Instance culprit_eq_dec : EqDecision culprit.
Proof. solve_decision. Defined.
#[global] Instance message_eq_dec : EqDecision message.
Proof. solve_decision. Defined.
#[global] Instance event_eq_dec : EqDecision event.
Proof. solve_decision. Defined.

(** The state [run] threads: the observable part, whether the local variable
    [runtime] is bound, and the events so far, each with the snapshot taken
    when it began (oldest first). *)
Record Worker := {
  now : Snapshot;
  runtime : bool;
  history : list (Snapshot * event)
}.

Definition M (A : Type) : Type := Worker -> result A * Worker.

#[global] Instance M_ret : MRet M := fun A a s => (Ok a, s).
#[global] Instance M_bind : MBind M := fun A B k m s =>
  match m s with
  | (Ok a, s') => k a s'
  | (Raise e, s') => (Raise e, s')
  end.

Definition raise {A} (e : exn) : M A := fun s => (Raise e, s).

(** [try: body / except ...: handler]. [handler e] is [None] when no clause
    matches [e]; an exception raised by the handler propagates. *)
Definition try_except {A} (body : M A) (handler : exn -> option (M A)) : M A :=
  fun s =>
    match body s with
    | (Ok a, s') => (Ok a, s')
    | (Raise e, s') =>
        match handler e with
        | Some h => h s'
        | None => (Raise e, s')
        end
    end.

(** [try: body / except ...: handler / else: els]. The [else] suite runs
    when [body] returns and is not guarded by the handlers. *)
Definition try_except_else {A B} (body : M A) (handler : exn -> option (M B))
    (els : A -> M B) : M B :=
  fun s =>
    match body s with
    | (Ok a, s') => els a s'
    | (Raise e, s') =>
        match handler e with
        | Some h => h s'
        | None => (Raise e, s')
        end
    end.

(** [try: body / finally: fin]. [fin] always runs; what it raises replaces
    the outcome of [body]. *)
Definition try_finally {A} (body : M A) (fin : M unit) : M A :=
  fun s =>
    match body s with
    | (r, s') =>
        match fin s' with
        | (Ok _, s'') => (r, s'')
        | (Raise e, s'') => (Raise e, s'')
        end
    end.

Definition emit (ev : event) : M unit := fun s =>
  (Ok (), {| now := now s; runtime := runtime s;
            history := history s ++ [(now s, ev)] |}).

Definition modify (f : Snapshot -> Snapshot) : M unit := fun s =>
  (Ok (), {| now := f (now s); runtime := runtime s; history := history s |}).

Definition set_is_ready (b : bool) (n : Snapshot) : Snapshot :=
  {| is_ready := b; is_shutdown := is_shutdown n;
     os_environ := os_environ n; process_env := process_env n |}.

Definition set_is_shutdown (b : bool) (n : Snapshot) : Snapshot :=
  {| is_ready := is_ready n; is_shutdown := b;
     os_environ := os_environ n; process_env := process_env n |}.

(** [os.environ.update(d)]: every item is stored in the mapping and passed
    to [putenv]. *)
Definition environ_update (d : gmap string string) (n : Snapshot) : Snapshot :=
  {| is_ready := is_ready n; is_shutdown := is_shutdown n;
     os_environ := d ∪ os_environ n; process_env := d ∪ process_env n |}.

(** [os.unsetenv(k)] removes [k] from the environment of the process and
    leaves the mapping [os.environ] as it is. *)
Definition unsetenv (k : string) (n : Snapshot) : Snapshot :=
  {| is_ready := is_ready n; is_shutdown := is_shutdown n;
     os_environ := os_environ n; process_env := delete k (process_env n) |}.

Definition logger (l : level) (m : message) : M unit := emit (Log l m).

(** [for x in xs: body x] *)
Fixpoint for_each {A} (xs : list A) (body : A -> M unit) : M unit :=
  match xs with
  | [] => mret ()
  | x :: xs' => body x;; for_each xs' body
  end.

(** The keys of a dict. *)
Definition keys (d : gmap string string) : list string := (map_to_list d).*1.

(** What the runtime does when the body calls it: for each of the calls,
    [None] when it returns and [Some e] when it raises [e]. *)
Record Runtime := {
  new : option exn;
  setup : option exn;
  run_forever : option exn;
  teardown : option exn
}.

Definition call (ev : event) (outcome : option exn) : M unit :=
  emit ev;;
  match outcome with
  | None => mret ()
  | Some e => raise e
  end.

Section Run.
Context `{Excepts}.
Variable self : Pea.
Variable rt : Runtime.

(** Reading the local variable [runtime]. *)
Definition read_runtime : M unit := fun s =>
  if runtime s then (Ok (), s) else (Raise UnboundLocalError, s).

Definition bind_runtime : M unit := fun s =>
  (Ok (), {| now := now s; runtime := true; history := history s |}).

(** [self.logger.error(f'{ex!r} during {what!r}' + hint
      if not self.args.quiet_error else '', ...)]:
    the conditional expression spans the concatenation, so the message is
    formatted only when [quiet_error] is off. [uses_runtime] tells whether
    [what] is an attribute of the local [runtime]. *)
Definition log_error_during (ex : exn) (what : culprit) (uses_runtime : bool)
    : M unit :=
  if negb (quiet_error (args self)) then
    (if uses_runtime then read_runtime else mret ());;
    logger ERROR (msg_during ex what)
  else logger ERROR msg_empty.

Definition _set_envs : M unit :=
  emit SetEnvs;;
  if dict_truthy (env (args self)) then
    if bool_decide (runtime_backend (args self) = THREAD) then
      logger WARNING msg_env_thread
    else modify (environ_update (_envs self))
  else mret ().

Definition _unset_envs : M unit :=
  emit UnsetEnvs;;
  if negb (bool_decide (_envs self = ∅))
     && negb (bool_decide (runtime_backend (args self) = THREAD))
  then for_each (keys (_envs self)) (fun k => modify (unsetenv k))
  else mret ().

(** The clauses after [runtime.run_forever()], tried in the order of the
    source: [RuntimeFailToStart], [RuntimeTerminated], [KeyboardInterrupt],
    then [(Exception, SystemError)], which is [Exception] since
    [SystemError] derives from it. *)
Definition run_forever_handler (ex : exn) : option (M unit) :=
  match ex with
  | RuntimeFailToStart => Some (log_error_during ex runtime_cls_init false)
  | RuntimeTerminated => Some (read_runtime;; logger INFO msg_is_end)
  | KeyboardInterrupt => Some (read_runtime;; logger INFO msg_interrupted)
  | _ =>
      if is_Exception ex
      then Some (log_error_during ex runtime_run_forever true)
      else None
  end.

(** The [try] statement of [run] up to its [finally] clause: the [try]
    suite, the [except Exception] clause and the [else] suite. *)
Definition run_try : M unit :=
  try_except_else
    (try_except
       (call Construct (new rt);; bind_runtime)
       (fun ex => if is_Exception ex
                  then Some (raise RuntimeFailToStart) else None);;
     _set_envs;;
     read_runtime;; logger INFO msg_starting;;
     read_runtime;; call Setup (setup rt))
    (fun ex => if is_Exception ex
               then Some (log_error_during ex runtime_setup true)
               else None)
    (fun _ =>
       emit ReadySet;; modify (set_is_ready true);;
       try_except (read_runtime;; call RunForever (run_forever rt))
                  run_forever_handler;;
       try_except (read_runtime;; call Teardown (teardown rt))
                  (fun ex => if is_Exception ex
                             then Some (log_error_during ex runtime_teardown true)
                             else None)).

(** The [finally] suite of [run]. *)
Definition run_finally : M unit :=
  emit ShutdownSet;; modify (set_is_shutdown true);;
  emit ReadyClear;; modify (set_is_ready false);;
  _unset_envs.

Definition run : M unit := try_finally run_try run_finally.

(** What [_unset_envs] does to the snapshot. *)
Definition envs_unset (n : Snapshot) : Snapshot :=
  if negb (bool_decide (_envs self = ∅))
     && negb (bool_decide (runtime_backend (args self) = THREAD))
  then foldl (fun n k => unsetenv k n) n (keys (_envs self))
  else n.
End Run.

(** Whether [_set_envs] updates the environment. *)
Definition applied (self : Pea) : bool :=
  dict_truthy (env (args self)) &&
  negb (bool_decide (runtime_backend (args self) = THREAD)).

(** The worker as [__init__] leaves it: both events unset, over the
    environment the process starts with. *)
Definition fresh (environ : gmap string string) : Worker :=
  {| now := {| is_ready := false; is_shutdown := false;
               os_environ := environ; process_env := environ |};
     runtime := false;
     history := [] |}.

Definition events (w : Worker) : list event := (history w).*2.

(** The successive states of the worker: the one each event began in, then
    the one [run] ended in. [events w !! i] is the event that leads from
    point [i] to point [i + 1]. *)
Definition points (w : Worker) : list Snapshot := (history w).*1 ++ [now w].

(** Whether [run_forever] returned or raised what one of the four clauses
    after it catches. *)
Definition run_forever_survived `{Excepts} (o : option exn) : bool :=
  match o with
  | None => true
  | Some (RuntimeFailToStart | RuntimeTerminated | KeyboardInterrupt) => true
  | Some e => is_Exception e
  end.

(** ** Sample inputs *)

(** The hierarchy used in the examples: [RuntimeFailToStart] is an
    [Exception], [RuntimeTerminated] is not. *)
Definition sample_excepts : Excepts :=
  {| RuntimeFailToStart_is_Exception := true;
     RuntimeTerminated_is_Exception := false |}.

Definition sample_args (backend : RuntimeBackendType)
    (env : option (gmap string string)) (daemon : bool) : Args :=
  {| runtime_backend := backend; name := Some "pea"; identity := "7f3a";
     quiet := false; quiet_error := false; env := env; daemon := daemon;
     host := "0.0.0.0"; port_ctrl := 5555; ctrl_with_ipc := false;
     runtime_cls := "ZEDRuntime"; uses := "executor://foo";
     socket_in := OTHER_SOCKET "PULL_BIND";
     timeout_ready := 500; timeout_ctrl := 5000;
     noblock_on_start := false |}.

Definition sample_pea (a : Args) : Pea :=
  {| args := a; _envs := init_envs a; _is_remote_controlled := false;
     _runtime_ctrl_addr := "tcp://0.0.0.0:5555";
     _remote_ctrl_addr := "ipc:///tmp/ctrl";
     _timeout_ctrl := timeout_ctrl a |}.

(** A runtime that serves until it is cancelled. *)
Definition serving_runtime : Runtime :=
  {| new := None; setup := None; run_forever := Some RuntimeTerminated;
     teardown := None |}.

Definition failing_setup : Runtime :=
  {| new := None; setup := Some (OtherException "OSError"); run_forever := None;
     teardown := None |}.

Definition failing_new : Runtime :=
  {| new := Some (OtherException "ValueError"); setup := None;
     run_forever := None; teardown := None |}.

Definition interrupted_setup : Runtime :=
  {| new := None; setup := Some KeyboardInterrupt; run_forever := None;
     teardown := None |}.

(** ** The owner's side: [wait_start_success] and [close] *)

(** What the thread that owns the Pea can do to, and see of, the worker and
    the runtime it drives. Time is counted in milliseconds: [tick] is what one
    more millisecond does to the world. [deactivate] and [cancel] are the
    static methods of the runtime class; they return or raise. *)
Class World (W : Type) := {
  ready_is_set : W -> bool;
  shutdown_is_set : W -> bool;
  is_alive : W -> bool;
  tick : W -> W;
  deactivate : string -> Z -> W -> option exn * W;
  cancel : string -> Z -> W -> option exn * W;
  worker_terminate : W -> W
}.

Inductive action :=
| GateWait (timeout : option nat)
| Join (timeout : option nat)
| Deactivate (ctrl_addr : string) (timeout_ctrl : Z)
| Sleep (ms : nat)
| Cancel (ctrl_addr : string) (timeout_ctrl : Z)
| ShutdownWait
| Terminate
| Say (l : level) (m : message)
| LoggerClose.

#[global] Instance action_eq_dec : EqDecision action.
Proof. solve_decision. Defined.

(** The world and what the owner did so far (oldest first). *)
Record Owner (W : Type) := {
  world : W;
  actions : list action
}.
Arguments world {W} o.
Arguments actions {W} o.

(** A computation of the owner: [None] when it is still blocked after the
    ticks it was given. *)
Definition C (W A : Type) : Type := Owner W -> option (result A * Owner W).

#[global] Instance C_ret {W} : MRet (C W) := fun A a o => Some (Ok a, o).
#[global] Instance C_bind {W} : MBind (C W) := fun A B k m o =>
  match m o with
  | Some (Ok a, o') => k a o'
  | Some (Raise e, o') => Some (Raise e, o')
  | None => None
  end.

Definition throw {W A} (e : exn) : C W A := fun o => Some (Raise e, o).

Definition attempt {W A} (body : C W A) (handler : exn -> option (C W A)) : C W A :=
  fun o =>
    match body o with
    | Some (Raise e, o') =>
        match handler e with
        | Some h => h o'
        | None => Some (Raise e, o')
        end
    | r => r
    end.

Definition act {W} (a : action) : C W unit := fun o =>
  Some (Ok (), {| world := world o; actions := actions o ++ [a] |}).

Definition look {W A} (f : W -> A) : C W A := fun o => Some (Ok (f (world o)), o).

Definition change {W} (f : W -> W) : C W unit := fun o =>
  Some (Ok (), {| world := f (world o); actions := actions o |}).

Definition say {W} (l : level) (m : message) : C W unit := act (Say l m).

Section Blocking.
Context `{World W}.

(** Wait at most [n] milliseconds for [p]: whether [p] came to hold, and
    the world then. *)
Fixpoint wait_at_most (p : W -> bool) (n : nat) (w : W) : bool * W :=
  if p w then (true, w)
  else match n with
       | O => (false, w)
       | S n' => wait_at_most p n' (tick w)
       end.

(** Wait for [p] without a bound; [None] when [p] did not hold within
    [fuel] milliseconds. *)
Fixpoint wait_forever (p : W -> bool) (fuel : nat) (w : W) : option W :=
  if p w then Some w
  else match fuel with
       | O => None
       | S fuel' => wait_forever p fuel' (tick w)
       end.

(** [Event.wait(timeout)] on an event whose flag is [p]: returns the flag,
    which is false only when a timeout was given and ran out. *)
Definition Event_wait (p : W -> bool) (timeout : option nat) (fuel : nat)
    : C W bool := fun o =>
  match timeout with
  | Some n =>
      let '(b, w) := wait_at_most p n (world o) in
      Some (Ok b, {| world := w; actions := actions o |})
  | None =>
      match wait_forever p fuel (world o) with
      | Some w => Some (Ok true, {| world := w; actions := actions o |})
      | None => None
      end
  end.

(** Modelled from the spec: the flag of [ConditionalEvent] (from
    [.helper], not at hand), the combined gate that is set as soon as
    either flag is set. *)
Definition ready_or_shutdown (w : W) : bool :=
  ready_is_set w || shutdown_is_set w.

(** [time.sleep(ms / 1000)] *)
Definition sleep (ms : nat) : C W unit :=
  act (Sleep ms);; change (Nat.iter ms tick).

(** [signal(ctrl_addr=..., timeout_ctrl=...)] for one of the two static
    methods. *)
Definition send (signal : string -> Z -> W -> option exn * W)
    (ctrl_addr : string) (timeout_ctrl : Z) : C W unit := fun o =>
  match signal ctrl_addr timeout_ctrl (world o) with
  | (None, w) => Some (Ok (), {| world := w; actions := actions o |})
  | (Some e, w) => Some (Raise e, {| world := w; actions := actions o |})
  end.
End Blocking.

Section Owner.
Context `{Excepts} `{World W}.
Variable self : Pea.

(** [self.worker.join(timeout)] *)
Definition join (timeout : option nat) (fuel : nat) : C W unit :=
  act (Join timeout);;
  Event_wait (fun w => negb (is_alive w)) timeout fuel;;
  mret ().

(** [terminate]: only a [multiprocessing.Process] has the attribute. *)
Definition terminate : C W unit :=
  if bool_decide (runtime_backend (args self) = PROCESS) then
    act Terminate;; change worker_terminate
  else mret ().

Definition _dealer : bool :=
  bool_decide (socket_in (args self) = DEALER_CONNECT).

Definition close (fuel : nat) : C W unit :=
  join (Some 100%nat) fuel;;
  r ← look ready_is_set;
  s ← look shutdown_is_set;
  (if r && negb s then
     attempt
       ((if _dealer then
           act (Deactivate (_runtime_ctrl_addr self) (_timeout_ctrl self));;
           send deactivate (_runtime_ctrl_addr self) (_timeout_ctrl self);;
           sleep 100
         else mret ());;
        let ctrl_addr :=
          if negb (_is_remote_controlled self)
          then _runtime_ctrl_addr self else _remote_ctrl_addr self in
        act (Cancel ctrl_addr (_timeout_ctrl self));;
        send cancel ctrl_addr (_timeout_ctrl self);;
        act ShutdownWait;;
        Event_wait shutdown_is_set None fuel;;
        mret ())
       (fun ex =>
          if is_Exception ex then
            Some (if negb (quiet_error (args self))
                  then say ERROR (msg_during ex runtime_cls_cancel)
                  else say ERROR msg_empty)
          else None);;
     if negb (daemon (args self)) then join None fuel else mret ()
   else terminate);;
  say SUCCESS msg_stop;;
  act LoggerClose.

(** [_timeout] after the first four lines of [wait_start_success], in
    milliseconds. *)
Definition ready_timeout : option nat :=
  if (timeout_ready (args self) <=? 0)%Z then None
  else Some (Z.to_nat (timeout_ready (args self))).

Definition wait_start_success (fuel : nat) : C W unit :=
  let _timeout := ready_timeout in
  act (GateWait _timeout);;
  Event_wait ready_or_shutdown _timeout fuel ≫= fun unblocked : bool =>
  if unblocked then
    look shutdown_is_set ≫= fun s : bool =>
    if s then
      (if quiet_error (args self) then say CRITICAL msg_fail_to_start
       else mret ());;
      throw RuntimeFailToStart
    else say SUCCESS msg_ready
  else
    say WARNING msg_timeout;;
    close fuel;;
    (* the message multiplies [_timeout] by 1e3 *)
    match _timeout with
    | Some _ => throw TimeoutError
    | None => throw TypeError
    end.
End Owner.

(** Whether an action is one of the two control signals. *)
Definition is_signal (a : action) : bool :=
  match a with
  | Deactivate _ _ | Cancel _ _ => true
  | _ => false
  end.

(** The new actions of a call that started with [before] done. *)
Definition since {W} (before after : Owner W) : list action :=
  drop (length (actions before)) (actions after).

(** Once [is_shutdown] is set, neither the passing of time nor killing the
    worker clears it. *)
Definition shutdown_is_stable `{World W} : Prop :=
  (∀ w : W, shutdown_is_set w = true → shutdown_is_set (tick w) = true) ∧
  (∀ w : W, shutdown_is_set w = true →
            shutdown_is_set (worker_terminate w) = true).

(** ** A small world, for the examples *)

(** Where the worker is: in [setup()] for some more milliseconds, in
    [run_forever()], between the setting of [is_shutdown] and the clearing
    of [is_ready], or past the end of [run]. *)
Inductive Phase := Starting (ms : nat) | Serving | Stopping | Stopped.

(** The worker, whether it was killed, and what the runtime class answers to
    a control signal: an exception, or nothing, in which case a serving
    runtime ends. *)
Record Mock := {
  phase : Phase;
  killed : bool;
  answer : option exn
}.

Definition mock_tick (s : Mock) : Mock :=
  if killed s then s
  else {| phase := match phase s with
                   | Starting (S n) => Starting n
                   | Starting O => Serving
                   | Serving => Serving
                   | Stopping | Stopped => Stopped
                   end;
          killed := false; answer := answer s |}.

Definition mock_cancel (s : Mock) : option exn * Mock :=
  match answer s with
  | Some e => (Some e, s)
  | None =>
      (None,
       {| phase := match phase s with Serving => Stopping | ph => ph end;
          killed := killed s; answer := None |})
  end.

Definition mock_world : World Mock :=
  {| ready_is_set := fun s =>
       match phase s with Serving | Stopping => true | _ => false end;
     shutdown_is_set := fun s =>
       match phase s with Stopping | Stopped => true | _ => false end;
     is_alive := fun s =>
       negb (killed s) && match phase s with Stopped => false | _ => true end;
     tick := mock_tick;
     deactivate := fun _ _ s => (answer s, s);
     cancel := fun _ _ => mock_cancel;
     worker_terminate := fun s =>
       {| phase := phase s; killed := true; answer := answer s |} |}.

Definition begin (ph : Phase) (answer : option exn) : Owner Mock :=
  {| world := {| phase := ph; killed := false; answer := answer |};
     actions := [] |}.

Definition with_timeout_ready (a : Args) (ms : Z) : Args :=
  {| runtime_backend := runtime_backend a; name := name a;
     identity := identity a; quiet := quiet a; quiet_error := quiet_error a;
     env := env a; daemon := daemon a; host := host a;
     port_ctrl := port_ctrl a; ctrl_with_ipc := ctrl_with_ipc a;
     runtime_cls := runtime_cls a; uses := uses a; socket_in := socket_in a;
     timeout_ready := ms; timeout_ctrl := timeout_ctrl a;
     noblock_on_start := noblock_on_start a |}.

Definition with_host_uses (a : Args) (h u : string) : Args :=
  {| runtime_backend := runtime_backend a; name := name a;
     identity := identity a; quiet := quiet a; quiet_error := quiet_error a;
     env := env a; daemon := daemon a; host := h;
     port_ctrl := port_ctrl a; ctrl_with_ipc := ctrl_with_ipc a;
     runtime_cls := runtime_cls a; uses := u; socket_in := socket_in a;
     timeout_ready := timeout_ready a; timeout_ctrl := timeout_ctrl a;
     noblock_on_start := noblock_on_start a |}.

(** ** More of the module: [start], and what the properties below name *)

Section Start.
Context `{Excepts} `{World W}.
(** What [self.worker.start()] does to the world. *)
Variable worker_start : W -> W.
Variable self : Pea.

(** [start]; the value returned is [self]. *)
Definition start (fuel : nat) : C W unit :=
  change worker_start;;
  if negb (noblock_on_start (args self)) then wait_start_success self fuel
  else mret ().

(** [__enter__] *)
Definition __enter__ (fuel : nat) : C W unit := start fuel.

(** [__exit__]: whatever the exception information is, it calls [close] and
    returns [None]. *)
Definition __exit__ (fuel : nat) : C W unit := close self fuel.
End Start.





(** The address [close] sends [cancel] to. *)
Definition cancel_addr (self : Pea) : string :=
  if negb (_is_remote_controlled self)
  then _runtime_ctrl_addr self else _remote_ctrl_addr self.

(** The control signals of a [close] that goes all the way. *)
Definition signal_plan (self : Pea) : list action :=
  (if _dealer self
   then [Deactivate (_runtime_ctrl_addr self) (_timeout_ctrl self)] else []) ++
  [Cancel (cancel_addr self) (_timeout_ctrl self)].

(** The world after [self.join(0.1)]. *)
Definition after_grace `{World W} (w : W) : W :=
  (wait_at_most (fun w => negb (is_alive w)) 100 w).2.

(** Whether [close] finds the Pea serving: [is_ready] set and [is_shutdown]
    not set after the join. *)
Definition serving_after_grace `{World W} (w : W) : bool :=
  ready_is_set (after_grace w) && negb (shutdown_is_set (after_grace w)).


(** A stand-in for [Zmqlet.get_ctrl_address], for the examples. *)
Definition sample_ctrl_address (h : option string) (p : option Z) (ipc : bool)
    : string :=
  if ipc then "ipc:///tmp/ctrl" else "tcp://" +:+ default "0.0.0.0" h.

(** A Pea that connects as a dealer and is controlled remotely. *)
Definition dealer_pea (daemon : bool) : Pea :=
  {| args :=
       {| runtime_backend := PROCESS; name := Some "pea"; identity := "7f3a";
          quiet := false; quiet_error := false; env := None; daemon := daemon;
          host := "remote.example"; port_ctrl := 5555; ctrl_with_ipc := false;
          runtime_cls := "JinadRuntime"; uses := "executor://foo";
          socket_in := DEALER_CONNECT;
          timeout_ready := 10; timeout_ctrl := 5000;
          noblock_on_start := false |};
     _envs := {["JINA_POD_NAME" := "pea"; "JINA_LOG_ID" := "7f3a"]};
     _is_remote_controlled := true;
     _runtime_ctrl_addr := "tcp://remote.example:5555";
     _remote_ctrl_addr := "ipc:///tmp/ctrl";
     _timeout_ctrl := 5000 |}.

(** * Properties *)

(** ** The worker *)

Lemma for_each_unsetenv ks s :
  for_each ks (fun k => modify (unsetenv k)) s =
  (Ok (), {| now := foldl (fun n k => unsetenv k n) (now s) ks;
             runtime := runtime s; history := history s |}).
Proof.
  revert s. induction ks as [|k ks IH]; intros s.
  - destruct s; reflexivity.
  - cbn [for_each]. unfold mbind, M_bind. cbn. rewrite IH. reflexivity.
Qed.

Lemma _unset_envs_run self s :
  _unset_envs self s =
  (Ok (), {| now := envs_unset self (now s); runtime := runtime s;
             history := history s ++ [(now s, UnsetEnvs)] |}).
Proof.
  unfold _unset_envs, envs_unset, mbind, M_bind, emit.
  destruct (negb _ && negb _).
  - rewrite for_each_unsetenv. reflexivity.
  - reflexivity.
Qed.

Lemma run_finally_run self s :
  run_finally self s =
  (Ok (),
   {| now := envs_unset self (set_is_ready false (set_is_shutdown true (now s)));
      runtime := runtime s;
      history := history s ++
        [(now s, ShutdownSet);
         (set_is_shutdown true (now s), ReadyClear);
         (set_is_ready false (set_is_shutdown true (now s)), UnsetEnvs)] |}).
Proof.
  unfold run_finally, mbind, M_bind, emit, modify. cbn.
  rewrite _unset_envs_run. cbn. rewrite <- !app_assoc. reflexivity.
Qed.

(** [run] is its [try] statement followed by the [finally] suite, whatever
    the [try] statement ended with. *)
Lemma run_unfold `{Excepts} self rt s :
  run self rt s =
  ((run_try self rt s).1,
   {| now := envs_unset self
        (set_is_ready false (set_is_shutdown true (now (run_try self rt s).2)));
      runtime := runtime (run_try self rt s).2;
      history := history (run_try self rt s).2 ++
        [(now (run_try self rt s).2, ShutdownSet);
         (set_is_shutdown true (now (run_try self rt s).2), ReadyClear);
         (set_is_ready false (set_is_shutdown true (now (run_try self rt s).2)),
          UnsetEnvs)] |}).
Proof.
  unfold run, try_finally. destruct (run_try self rt s) as [r s'].
  rewrite run_finally_run. reflexivity.
Qed.

(** Case analysis on everything the [try] statement branches on. *)
Ltac unfold_try :=
  cbv beta iota zeta delta
    [run_try try_except_else try_except call _set_envs log_error_during logger
     mbind M_bind mret M_ret emit modify raise read_runtime bind_runtime
     run_forever_handler fresh now runtime history new setup run_forever
     teardown run_forever_survived is_Exception negb andb app fst snd].

Ltac split_try :=
  repeat first
    [ progress unfold_try
    | match goal with
      | |- context [match ?o with Some _ => _ | None => _ end] =>
          is_var o; destruct o
      | |- context [match ?e with RuntimeFailToStart => _ | _ => _ end] =>
          is_var e; destruct e
      | |- context [if ?b then _ else _] =>
          lazymatch b with
          | context [if _ then _ else _] => fail
          | context [match _ with _ => _ end] => fail
          | _ => destruct b eqn:?
          end
      end ].

Ltac decide_goal := apply (bool_decide_unpack _); vm_compute; exact I.

Ltac find_elem :=
  repeat first [ apply list_elem_of_here | apply list_elem_of_further ].


Section WorkerProperties.
Context `{Excepts}.
Variable self : Pea.




Lemma run_events rt s :
  events (run self rt s).2 =
  events (run_try self rt s).2 ++ [ShutdownSet; ReadyClear; UnsetEnvs].
Proof.
  rewrite run_unfold. unfold events. cbn [snd history].
  rewrite fmap_app. reflexivity.
Qed.

Lemma elem_of_run_events ev rt s :
  ev ≠ ShutdownSet → ev ≠ ReadyClear → ev ≠ UnsetEnvs →
  ev ∈ events (run self rt s).2 ↔ ev ∈ events (run_try self rt s).2.
Proof.
  intros. rewrite run_events, elem_of_app, !elem_of_cons, elem_of_nil.
  intuition congruence.
Qed.


End WorkerProperties.


(** C2: a runtime class that raises when it is instantiated, with
    [quiet_error] off, makes an exception leave [run] whatever the hierarchy
    of [jina.excepts] is: when [RuntimeFailToStart] is an [Exception], the
    [except] clause reads the unbound local [runtime], [UnboundLocalError]
    leaves [run] and nothing is logged. A [KeyboardInterrupt] during
    [setup()] leaves [run] as well. *)
Theorem run_lets_exceptions_escape `{Excepts} :
  let pea := sample_pea (sample_args PROCESS None false) in
  let w := run pea failing_new (fresh ∅) in
  (∃ e, w.1 = Raise e) ∧
  (RuntimeFailToStart_is_Exception = true →
     w.1 = Raise UnboundLocalError ∧
     events w.2 = [Construct; ShutdownSet; ReadyClear; UnsetEnvs]) ∧
  (run pea interrupted_setup (fresh ∅)).1 = Raise KeyboardInterrupt.
Proof.
  destruct H as [fail_to_start terminated]. cbv zeta. split; [|split].
  - destruct fail_to_start; vm_compute; by eexists.
  - cbn [RuntimeFailToStart_is_Exception]. intros ->. split; by vm_compute.
  - destruct fail_to_start, terminated; by vm_compute.
Qed.

Lemma run_lets_exceptions_escape_witness :
  let pea := sample_pea (sample_args PROCESS None false) in
  (@run sample_excepts pea failing_new (fresh ∅)).1 = Raise UnboundLocalError.
Proof.
  cbv zeta.
  apply (proj1 (proj2 (@run_lets_exceptions_escape sample_excepts))).
  reflexivity.
Defined.


(** ** The two flags *)

Lemma envs_unset_flags self n :
  is_ready (envs_unset self n) = is_ready n ∧
  is_shutdown (envs_unset self n) = is_shutdown n ∧
  os_environ (envs_unset self n) = os_environ n.
Proof.
  unfold envs_unset. destruct (negb _ && negb _); [|done].
  generalize (keys (_envs self)). intros ks. revert n.
  induction ks as [|k ks IH]; intros n; [done|].
  cbn [foldl]. destruct (IH (unsetenv k n)) as (-> & -> & ->). done.
Qed.

Lemma flags_shape (hb : list (Snapshot * event)) (n0 nf : Snapshot) :
  Forall (fun p => is_shutdown p.1 = false) hb →
  is_shutdown n0 = false →
  is_ready nf = false → is_shutdown nf = true →
  let pts := hb.*1 ++ [n0; set_is_shutdown true n0;
                        set_is_ready false (set_is_shutdown true n0); nf] in
  let evs := hb.*2 ++ [ShutdownSet; ReadyClear; UnsetEnvs] in
  ∀ i n, pts !! i = Some n →
    (evs !! i = Some ReadySet → is_shutdown n = false) ∧
    (is_shutdown n = true →
       ∀ j n', (i ≤ j)%nat → pts !! j = Some n' → is_shutdown n' = true) ∧
    (is_ready n = true → is_shutdown n = true → evs !! i = Some ReadyClear).
Proof.
  intros Hb H0 Hr Hs pts evs i n Hi.
  assert (Hlow : ∀ k m, (k < length hb)%nat → pts !! k = Some m →
                        is_shutdown m = false).
  { intros k m Hk. unfold pts. rewrite lookup_app_l by by rewrite length_fmap.
    rewrite list_lookup_fmap. destruct (hb !! k) as [p|] eqn:Hp; [|done].
    intros [= <-]. by apply (Forall_lookup_1 _ _ _ _ Hb Hp). }
  assert (Hhigh : ∀ k, pts !! (length hb + k)%nat =
                       [n0; set_is_shutdown true n0;
                        set_is_ready false (set_is_shutdown true n0); nf] !! k).
  { intros k. unfold pts. rewrite lookup_app_r by (rewrite length_fmap; lia).
    f_equal. rewrite length_fmap. lia. }
  assert (Hev : ∀ k, evs !! (length hb + k)%nat =
                     [ShutdownSet; ReadyClear; UnsetEnvs] !! k).
  { intros k. unfold evs. rewrite lookup_app_r by (rewrite length_fmap; lia).
    f_equal. rewrite length_fmap. lia. }
  destruct (decide (i < length hb)%nat) as [Hlt|Hge].
  - pose proof (Hlow i n Hlt Hi) as Hn. rewrite Hn. repeat split; done.
  - assert (∃ k, i = (length hb + k)%nat) as [k ->]
      by (exists (i - length hb)%nat; lia).
    rewrite Hhigh in Hi. rewrite Hev.
    split; [|split].
    + destruct k as [|[|[|[|k]]]]; cbn in *; done.
    + intros Hn j n' Hj Hj'.
      assert (∃ k', j = (length hb + k')%nat) as [k' ->]
        by (exists (j - length hb)%nat; lia).
      rewrite Hhigh in Hj'.
      destruct k as [|[|[|[|k]]]]; cbn in Hi; try done;
        injection Hi as <-; cbn in Hn; try congruence;
        destruct k' as [|[|[|[|k']]]]; cbn in Hj'; try done; try lia;
        injection Hj' as <-; done.
    + intros Hrn Hsn.
      destruct k as [|[|[|[|k]]]]; cbn in Hi; try done;
        injection Hi as <-; cbn in *; congruence.
Qed.

Section FlagProperties.
Context `{Excepts}.
Variable self : Pea.

(** The [try] statement never touches [is_shutdown]. *)
Lemma run_try_flags rt environ :
  let w := (run_try self rt (fresh environ)).2 in
  Forall (fun p => is_shutdown p.1 = false) (history w) ∧
  is_shutdown (now w) = false.
Proof.
  destruct rt as [n s r t]. cbv zeta.
  split_try; (split; [repeat constructor | reflexivity]).
Qed.

(** C4, amended: at every point of [run], [is_ready] is not set once
    [is_shutdown] is set, and [is_shutdown], once set, stays set. Both
    flags are set together at one point only, the one between the setting
    of [is_shutdown] and the clearing of [is_ready] that follows it; [run]
    ends with [is_ready] cleared and [is_shutdown] set. *)
Theorem run_flags rt environ :
  let w := (run self rt (fresh environ)).2 in
  (∀ i n, points w !! i = Some n →
     (events w !! i = Some ReadySet → is_shutdown n = false) ∧
     (is_shutdown n = true →
        ∀ j n', (i ≤ j)%nat → points w !! j = Some n' →
                is_shutdown n' = true) ∧
     (is_ready n = true → is_shutdown n = true →
        events w !! i = Some ReadyClear)) ∧
  is_ready (now w) = false ∧ is_shutdown (now w) = true.
Proof.
  cbv zeta. rewrite run_unfold. unfold points, events.
  cbn [snd history now].
  destruct (run_try_flags rt environ) as [Hb H0].
  set (w := (run_try self rt (fresh environ)).2) in *.
  set (n2 := set_is_ready false (set_is_shutdown true (now w))).
  destruct (envs_unset_flags self n2) as (Hr & Hs & _).
  split; [|split; [by rewrite Hr | by rewrite Hs]].
  rewrite !fmap_app, <- app_assoc. cbn [fmap list_fmap fst snd app].
  apply flags_shape; [done | done | by rewrite Hr | by rewrite Hs].
Qed.
End FlagProperties.

(** C4, as stated, fails: with a runtime that serves and ends, the point
    reached by setting [is_shutdown] has both flags set. *)
Lemma run_both_flags_set :
  let w := (@run sample_excepts (sample_pea (sample_args PROCESS None false))
              serving_runtime (fresh ∅)).2 in
  ∃ i n, points w !! i = Some n ∧ events w !! i = Some ReadyClear ∧
         is_ready n = true ∧ is_shutdown n = true.
Proof.
  cbv zeta. exists 9%nat. eexists. split; [by vm_compute|].
  repeat split; by vm_compute.
Qed.

Lemma run_flags_witness :
  let w := (@run sample_excepts (sample_pea (sample_args PROCESS None false))
              serving_runtime (fresh ∅)).2 in
  events w !! 9%nat = Some ReadyClear ∧
  is_ready (now w) = false ∧ is_shutdown (now w) = true.
Proof.
  cbv zeta.
  destruct (@run_flags sample_excepts
              (sample_pea (sample_args PROCESS None false))
              serving_runtime ∅) as [Hpoints Hend].
  split; [|exact Hend].
  edestruct (Hpoints 9%nat) as (_ & _ & Hboth); [by vm_compute|].
  apply Hboth; reflexivity.
Defined.

(** ** The environment *)

Lemma elem_of_keys k (m : gmap string string) : k ∈ keys m ↔ is_Some (m !! k).
Proof.
  unfold keys. rewrite list_elem_of_fmap. split.
  - intros ([k' v] & -> & Hin). apply elem_of_map_to_list in Hin. by exists v.
  - intros [v Hv]. exists (k, v). split; [done|]. by apply elem_of_map_to_list.
Qed.

Lemma unsetenv_all_lookup ks n k :
  process_env (foldl (fun n k => unsetenv k n) n ks) !! k =
  if decide (k ∈ ks) then None else process_env n !! k.
Proof.
  revert n. induction ks as [|a ks IH]; intros n.
  - cbn. case_decide as Hin; [by apply elem_of_nil in Hin | done].
  - cbn [foldl]. rewrite IH. cbn [unsetenv process_env].
    destruct (decide (k ∈ ks)) as [Hin|Hin].
    + rewrite decide_True by (by right). done.
    + destruct (decide (k = a)) as [->|Hne].
      * rewrite decide_True by (by left). apply lookup_delete_eq.
      * rewrite decide_False by (rewrite elem_of_cons; intuition).
        by apply lookup_delete_ne.
Qed.

Lemma envs_unset_thread self n :
  runtime_backend (args self) = THREAD → envs_unset self n = n.
Proof.
  intros Hb. unfold envs_unset. rewrite Hb.
  by rewrite andb_false_r.
Qed.

Lemma envs_unset_process self n k :
  runtime_backend (args self) = PROCESS →
  process_env (envs_unset self n) !! k =
  if decide (is_Some (_envs self !! k)) then None else process_env n !! k.
Proof.
  intros Hb. unfold envs_unset. rewrite Hb.
  rewrite (bool_decide_eq_false_2 (PROCESS = THREAD)) by done.
  destruct (decide (_envs self = ∅)) as [He|He].
  - rewrite bool_decide_eq_true_2 by done. cbn [negb andb].
    rewrite decide_False; [done|]. rewrite He, lookup_empty. by intros [? ?].
  - rewrite bool_decide_eq_false_2 by done. cbn [negb andb].
    rewrite unsetenv_all_lookup.
    destruct (decide (k ∈ keys (_envs self))) as [Hin|Hin].
    + rewrite decide_True; [done|]. by apply elem_of_keys.
    + rewrite decide_False; [done|]. by rewrite <- elem_of_keys.
Qed.

Lemma init_envs_plain a :
  dict_truthy (env a) = false →
  init_envs a !! "JINA_POD_NAME" = Some (pea_name a) ∧
  init_envs a !! "JINA_LOG_ID" = Some (identity a).
Proof.
  intros Ht. unfold init_envs. rewrite Ht. cbv zeta.
  destruct (quiet a); split; by simplify_map_eq.
Qed.


Section EnvProperties.
Context `{Excepts}.
Variable self : Pea.


Lemma run_try_env_untouched rt environ :
  applied self = false →
  let w := (run_try self rt (fresh environ)).2 in
  Forall (fun p => os_environ p.1 = environ ∧ process_env p.1 = environ)
         (history w) ∧
  os_environ (now w) = environ ∧ process_env (now w) = environ.
Proof.
  destruct rt as [n s r t]. unfold applied. cbv zeta.
  split_try; first [ discriminate | intros _ ];
    (split; [repeat constructor | split; reflexivity]).
Qed.


Lemma run_history rt s :
  history (run self rt s).2 =
  history (run_try self rt s).2 ++
    [(now (run_try self rt s).2, ShutdownSet);
     (set_is_shutdown true (now (run_try self rt s).2), ReadyClear);
     (set_is_ready false (set_is_shutdown true (now (run_try self rt s).2)),
      UnsetEnvs)].
Proof. rewrite run_unfold. reflexivity. Qed.

Lemma run_now rt s :
  now (run self rt s).2 =
  envs_unset self
    (set_is_ready false (set_is_shutdown true (now (run_try self rt s).2))).
Proof. rewrite run_unfold. reflexivity. Qed.


(** C10: on a [PROCESS] backend with [args.env] empty, [_set_envs] changes
    nothing, so the environment is the inherited one at every point of
    [run]; yet at the end [_unset_envs] has unset every key of [_envs], the
    always present [JINA_POD_NAME] and [JINA_LOG_ID] among them, from the
    environment of the process, whatever value they had before. *)
Theorem unset_envs_not_inverse rt environ :
  runtime_backend (args self) = PROCESS →
  dict_truthy (env (args self)) = false →
  _envs self = init_envs (args self) →
  let w := (run self rt (fresh environ)).2 in
  (∀ s, now (_set_envs self s).2 = now s) ∧
  (∀ n ev, (n, ev) ∈ history w →
           os_environ n = environ ∧ process_env n = environ) ∧
  (∀ k, is_Some (_envs self !! k) → process_env (now w) !! k = None) ∧
  process_env (now w) !! "JINA_POD_NAME" = None ∧
  process_env (now w) !! "JINA_LOG_ID" = None ∧
  (∀ k, _envs self !! k = None → process_env (now w) !! k = environ !! k).
Proof.
  intros Hb Ht He. cbv zeta.
  assert (Ha : applied self = false) by (unfold applied; by rewrite Ht).
  destruct (run_try_env_untouched rt environ Ha) as (Hall & Ho & Hp).
  rewrite Forall_forall in Hall.
  assert (Hunset : ∀ k, is_Some (_envs self !! k) →
            process_env (now (run self rt (fresh environ)).2) !! k = None).
  { intros k Hk. rewrite run_now, envs_unset_process by done.
    by rewrite decide_True. }
  destruct (init_envs_plain (args self) Ht) as [Hpod Hlog].
  assert (Hsame : ∀ n ev, (n, ev) ∈ history (run self rt (fresh environ)).2 →
            os_environ n = environ ∧ process_env n = environ).
  { intros n ev Hin. rewrite run_history in Hin.
    rewrite elem_of_app, !elem_of_cons, elem_of_nil in Hin.
    destruct Hin as [Hin|[[= -> _]|[[= -> _]|[[= -> _]|[]]]]];
      [by apply (Hall _ Hin)|done..]. }
  split; [|split; [|split; [|split; [|split]]]].
  - intros s. unfold _set_envs, mbind, M_bind, emit. by rewrite Ht.
  - exact Hsame.
  - exact Hunset.
  - apply Hunset. rewrite He, Hpod. by eexists.
  - apply Hunset. rewrite He, Hlog. by eexists.
  - intros k Hk. rewrite run_now, envs_unset_process by done.
    rewrite decide_False by (rewrite Hk; by intros [? ?]).
    cbn [set_is_ready set_is_shutdown process_env]. by rewrite Hp.
Qed.
End EnvProperties.



Lemma unset_envs_not_inverse_witness :
  let pea := sample_pea (sample_args PROCESS None false) in
  let inherited : gmap string string := {["JINA_POD_NAME" := "outer"]} in
  let w := (@run sample_excepts pea serving_runtime (fresh inherited)).2 in
  inherited !! "JINA_POD_NAME" = Some "outer" ∧
  process_env (now w) !! "JINA_POD_NAME" = None.
Proof.
  cbv zeta. split; [by vm_compute|].
  apply (@unset_envs_not_inverse sample_excepts
           (sample_pea (sample_args PROCESS None false)) serving_runtime
           {["JINA_POD_NAME" := "outer"]}); reflexivity.
Defined.

(** ** Runtime selection *)

Section SelectionProperties.
Context {RuntimeCls : Type}.
Variable __default_host__ : string.
Variable get_runtime : string -> result RuntimeCls.

(** C5: [_get_runtime_cls] passes one name to [get_runtime], stores it in
    [args.runtime_cls], and returns the class found for it with the flag
    [is_remote_controlled]. When the host is not the default one, the name
    is [JinadRuntime] and the flag is set, whatever name was requested.
    When the host is the default one, the requested name is [ZEDRuntime]
    and [uses] starts with [docker://], the name is [ContainerRuntime] and
    the flag is not set. Otherwise the requested name is kept and the flag
    is not set. *)
Theorem runtime_selection (a : Args) :
  ∃ chosen remote,
    _get_runtime_cls __default_host__ get_runtime a =
      (match get_runtime chosen with
       | Ok v => Ok (v, remote)
       | Raise e => Raise e
       end, set_runtime_cls a chosen) ∧
    (host a ≠ __default_host__ →
       chosen = "JinadRuntime" ∧ remote = true) ∧
    (host a = __default_host__ → runtime_cls a = "ZEDRuntime" →
     String.prefix "docker://" (uses a) = true →
       chosen = "ContainerRuntime" ∧ remote = false) ∧
    (host a = __default_host__ →
     ¬ (runtime_cls a = "ZEDRuntime" ∧
        String.prefix "docker://" (uses a) = true) →
       chosen = runtime_cls a ∧ remote = false).
Proof.
  unfold _get_runtime_cls.
  destruct (decide (host a = __default_host__)) as [Hh|Hh].
  - rewrite bool_decide_eq_true_2 by done. cbn [negb].
    destruct (decide (runtime_cls a = "ZEDRuntime")) as [Hc|Hc].
    + rewrite bool_decide_eq_true_2 by done. cbn [andb].
      destruct (String.prefix "docker://" (uses a)) eqn:Hp.
      * exists "ContainerRuntime", false. cbn.
        destruct (get_runtime "ContainerRuntime"); intuition.
      * exists (runtime_cls a), false.
        destruct a; cbn in *. 
        destruct (get_runtime _); intuition congruence.
    + rewrite bool_decide_eq_false_2 by done. cbn [andb].
      exists (runtime_cls a), false.
      destruct a; cbn in *. 
      destruct (get_runtime _); intuition congruence.
  - rewrite bool_decide_eq_false_2 by done. cbn [negb].
    exists "JinadRuntime", true. cbn [runtime_cls set_runtime_cls].
    rewrite (bool_decide_eq_false_2 ("JinadRuntime" = "ZEDRuntime")) by done.
    cbn [andb runtime_cls set_runtime_cls].
    destruct (get_runtime "JinadRuntime"); intuition.
Qed.
End SelectionProperties.

(** ** The owner's side *)

Section Waiting.
Context `{World W}.
Variable p : W → bool.

Lemma wait_forever_holds fuel w w' :
  wait_forever p fuel w = Some w' → p w' = true.
Proof.
  revert w. induction fuel as [|fuel IH]; intros w; cbn;
    destruct (p w) eqn:Hp; try done.
  - by intros [= <-].
  - by intros [= <-].
  - apply IH.
Qed.

Lemma wait_forever_blocked fuel w :
  (∀ n, (n ≤ fuel)%nat → p (Nat.iter n tick w) = false) →
  wait_forever p fuel w = None.
Proof.
  revert w. induction fuel as [|fuel IH]; intros w Hn;
    pose proof (Hn 0%nat ltac:(lia)) as Hw; cbn in Hw; cbn; rewrite Hw.
  - done.
  - apply IH. intros n Hle.
    rewrite <- Nat.iter_succ_r. apply Hn. lia.
Qed.

Lemma wait_forever_returns fuel w n :
  (n ≤ fuel)%nat → p (Nat.iter n tick w) = true →
  ∃ w', wait_forever p fuel w = Some w'.
Proof.
  revert w n. induction fuel as [|fuel IH]; intros w n Hle Hp; cbn.
  - assert (n = 0%nat) as -> by lia. cbn in Hp. rewrite Hp. by eexists.
  - destruct (p w) eqn:Hw; [by eexists|].
    destruct n as [|n]; [cbn in Hp; congruence|].
    apply (IH _ n); [lia|]. by rewrite <- Nat.iter_succ_r.
Qed.


Variable q : W → bool.
Hypothesis q_stable : ∀ w, q w = true → q (tick w) = true.

Lemma wait_at_most_stable n w :
  q w = true → q (wait_at_most p n w).2 = true.
Proof.
  revert w. induction n as [|n IH]; intros w Hq; cbn;
    destruct (p w); cbn; try done. apply IH. by apply q_stable.
Qed.

Lemma wait_forever_stable fuel w w' :
  q w = true → wait_forever p fuel w = Some w' → q w' = true.
Proof.
  revert w. induction fuel as [|fuel IH]; intros w Hq; cbn;
    destruct (p w); try done; try (by intros [= <-]).
  apply IH. by apply q_stable.
Qed.
End Waiting.

Ltac unfold_owner :=
  cbv beta iota zeta delta
    [wait_start_success close join terminate sleep send attempt throw say
     change look act Event_wait mbind C_bind mret C_ret world actions
     negb andb fst snd].

Ltac split_owner :=
  repeat first
    [ progress unfold_owner
    | match goal with
      | |- context [wait_at_most ?p ?n ?w] =>
          let b := fresh "b" in let w' := fresh "w" in
          destruct (wait_at_most p n w) as [b w'] eqn:?
      | |- context [wait_forever ?p ?n ?w] =>
          destruct (wait_forever p n w) eqn:?
      | |- context [deactivate ?a ?t ?w] =>
          destruct (deactivate a t w) as [[?|] ?] eqn:?
      | |- context [cancel ?a ?t ?w] =>
          destruct (cancel a t w) as [[?|] ?] eqn:?
      | |- context [match ?o with Some _ => _ | None => _ end] =>
          is_var o; destruct o
      | |- context [if ?b then _ else _] =>
          lazymatch b with
          | context [if _ then _ else _] => fail
          | context [match _ with _ => _ end] => fail
          | _ => destruct b eqn:?
          end
      end ].

Lemma mock_shutdown_is_stable : @shutdown_is_stable Mock mock_world.
Proof.
  split; intros [ph k a]; cbn; unfold mock_tick; cbn;
    destruct k, ph as [[|n]| | |]; cbn; done.
Qed.

Section OwnerProperties.
Context `{Excepts} `{World W}.
Variable self : Pea.

(** What [close] does once [is_shutdown] is set. *)
Lemma close_silent fuel (o : Owner W) :
  shutdown_is_stable →
  shutdown_is_set (world o) = true →
  ∃ w',
    close self fuel o =
      Some (Ok (),
            {| world := w';
               actions := actions o ++
                 Join (Some 100%nat) ::
                 (if bool_decide (runtime_backend (args self) = PROCESS)
                  then [Terminate] else []) ++
                 [Say SUCCESS msg_stop; LoggerClose] |}) ∧
    shutdown_is_set w' = true.
Proof.
  intros [Htick Hkill] Hs. destruct o as [w acts]. cbn [world] in Hs.
  pose proof (wait_at_most_stable (fun w => negb (is_alive w))
                shutdown_is_set Htick 100 w Hs) as Hk.
  unfold_owner.
  destruct (wait_at_most _ 100 w) as [b w0] eqn:Hw. cbn [snd] in Hk.
  unfold_owner. rewrite Hk.
  destruct (ready_is_set w0), (bool_decide _); unfold_owner;
    eexists; (split; [rewrite <- !app_assoc; reflexivity|]); auto.
Qed.

(** A [close] that came to wait for [is_shutdown] ends with it set. *)
Lemma close_waited fuel (o : Owner W) r o' :
  shutdown_is_stable →
  close self fuel o = Some (r, o') →
  ShutdownWait ∈ since o o' →
  shutdown_is_set (world o') = true.
Proof.
  intros [Htick Hkill]. destruct o as [w acts]. unfold since.
  split_owner; try discriminate; intros [= <- <-]; cbn [actions world];
    rewrite <- ?app_assoc, drop_app_length;
    (let Hin := fresh in
     intros Hin;
     first [ exfalso; revert Hin; decide_goal
           | eauto using wait_forever_holds, wait_forever_stable ]).
Qed.

(** C7, amended: a [close()] invoked when [is_shutdown] is set sends
    neither [deactivate] nor [cancel]: it returns after the grace join,
    [terminate()] (on a process), the stop message and the closing of the
    logger, and [is_shutdown] stays set. [is_shutdown] is set after any
    [close()] that came to wait for it, that is, whose control signals were
    sent without an exception. *)
Theorem close_again_after_shutdown fuel (o : Owner W) :
  shutdown_is_stable →
  (shutdown_is_set (world o) = true →
     ∃ o', close self fuel o = Some (Ok (), o') ∧
           since o o' =
             Join (Some 100%nat) ::
             (if bool_decide (runtime_backend (args self) = PROCESS)
              then [Terminate] else []) ++
             [Say SUCCESS msg_stop; LoggerClose] ∧
           Forall (fun a => is_signal a = false) (since o o') ∧
           shutdown_is_set (world o') = true) ∧
  (∀ r o', close self fuel o = Some (r, o') →
           ShutdownWait ∈ since o o' →
           shutdown_is_set (world o') = true).
Proof.
  intros Hst. split.
  - intros Hs. destruct (close_silent fuel o Hst Hs) as (w' & Hc & Hw').
    eexists. split; [exact Hc|]. unfold since. cbn [actions world].
    rewrite drop_app_length. split; [done|]. split; [|done].
    destruct (bool_decide _); repeat constructor.
  - intros r o'. by apply close_waited.
Qed.


(** C8: with [timeout_ready <= 0], [wait_start_success] never raises
    [TimeoutError], however many milliseconds it is given: as long as
    neither flag is set it is still waiting, and once one of them is set it
    returns or raises [RuntimeFailToStart]. *)
Theorem wait_start_success_without_timeout fuel (o : Owner W) :
  (timeout_ready (args self) ≤ 0)%Z →
  (∀ o', wait_start_success self fuel o ≠ Some (Raise TimeoutError, o')) ∧
  ((∀ n, (n ≤ fuel)%nat →
         ready_or_shutdown (Nat.iter n tick (world o)) = false) →
     wait_start_success self fuel o = None) ∧
  (∀ n, (n ≤ fuel)%nat →
        ready_or_shutdown (Nat.iter n tick (world o)) = true →
     ∃ r o', wait_start_success self fuel o = Some (r, o') ∧
             (r = Ok () ∨ r = Raise RuntimeFailToStart) ∧
             ready_or_shutdown (world o') = true).
Proof.
  intros Ht. apply Z.leb_le in Ht. destruct o as [w acts].
  unfold wait_start_success, Event_wait, ready_timeout, mbind, C_bind,
    look, say, throw, mret, C_ret; unfold act.
  cbn [world actions]. rewrite Ht.
  split; [|split].
  - intros o'.
    destruct (wait_forever ready_or_shutdown fuel w) as [w0|]; [|done].
    cbn [world]. destruct (shutdown_is_set w0), (quiet_error (args self));
      done.
  - intros Hn. by rewrite wait_forever_blocked.
  - intros n Hle Hn.
    destruct (wait_forever_returns _ fuel w n Hle Hn) as [w' Hw].
    rewrite Hw. pose proof (wait_forever_holds _ _ _ _ Hw) as Hg.
    cbn [world]. destruct (shutdown_is_set w'), (quiet_error (args self));
      eexists _, _; (split; [reflexivity|]); cbn [world]; auto.
Qed.
End OwnerProperties.


(** C7, as stated, fails: on a daemon Pea whose [cancel] raises, the first
    [close()] returns with [is_shutdown] not set, and the second one sends
    [cancel] again. *)
Lemma close_twice_cancels_twice :
  let pea := sample_pea (sample_args PROCESS None true) in
  let o := begin Serving (Some (OtherException "TimeoutError")) in
  let said :=
    [Join (Some 100%nat); Cancel "tcp://0.0.0.0:5555" 5000;
     Say ERROR (msg_during (OtherException "TimeoutError") runtime_cls_cancel);
     Say SUCCESS msg_stop; LoggerClose] in
  ∃ o1 o2,
    @close sample_excepts Mock mock_world pea 0 o = Some (Ok (), o1) ∧
    @shutdown_is_set Mock mock_world (world o1) = false ∧
    since o o1 = said ∧
    @close sample_excepts Mock mock_world pea 0 o1 = Some (Ok (), o2) ∧
    since o1 o2 = said.
Proof.
  cbv zeta. eexists _, _. split; [by vm_compute|].
  split; [reflexivity|]. split; [reflexivity|].
  split; [by vm_compute|]. reflexivity.
Qed.

Lemma close_again_after_shutdown_witness :
  let pea := sample_pea (sample_args PROCESS None false) in
  let o := begin Stopped None in
  ∃ o', @close sample_excepts Mock mock_world pea 0 o = Some (Ok (), o') ∧
        since o o' =
          [Join (Some 100%nat); Terminate; Say SUCCESS msg_stop; LoggerClose] ∧
        Forall (fun a => is_signal a = false) (since o o') ∧
        @shutdown_is_set Mock mock_world (world o') = true.
Proof.
  cbv zeta.
  apply (proj1 (@close_again_after_shutdown sample_excepts Mock mock_world
                  (sample_pea (sample_args PROCESS None false)) 0%nat
                  (begin Stopped None) mock_shutdown_is_stable)).
  reflexivity.
Defined.

Lemma wait_start_success_without_timeout_witness :
  let pea :=
    sample_pea (with_timeout_ready (sample_args PROCESS None false) (-1)) in
  let o := begin (Starting 3) None in
  ∃ r o', @wait_start_success sample_excepts Mock mock_world pea 10 o =
            Some (r, o') ∧
          (r = Ok () ∨ r = Raise RuntimeFailToStart) ∧
          @ready_or_shutdown Mock mock_world (world o') = true.
Proof.
  cbv zeta.
  assert (Hle : (timeout_ready
                   (args (sample_pea
                      (with_timeout_ready (sample_args PROCESS None false) (-1))))
                 ≤ 0)%Z) by (cbn; lia).
  apply (proj2 (proj2 (@wait_start_success_without_timeout sample_excepts
                         Mock mock_world _ 10%nat (begin (Starting 3) None)
                         Hle)) 4%nat); [lia | reflexivity].
Defined.

Lemma runtime_selection_witness :
  let a := with_host_uses (sample_args PROCESS None false)
             "remote.example" "docker://image" in
  (_get_runtime_cls "0.0.0.0" (fun cls => Ok cls) a).1
    = Ok ("JinadRuntime", true).
Proof.
  cbv zeta.
  destruct (runtime_selection "0.0.0.0" (fun cls => Ok cls)
              (with_host_uses (sample_args PROCESS None false)
                 "remote.example" "docker://image"))
    as (chosen & remote & Heq & Hremote & _).
  destruct Hremote as [-> ->]; [done|]. rewrite Heq. reflexivity.
Defined.

(** * More of the module *)

(** ** The body [run] *)

Section MoreWorker.
Context `{Excepts}.
Variable self : Pea.





Lemma run_try_error_messages rt environ :
  Forall (fun ev => ∀ m, ev = Log ERROR m →
            if quiet_error (args self) then m = msg_empty else m ≠ msg_empty)
         (events (run_try self rt (fresh environ)).2).
Proof.
  destruct rt as [n s r t]. unfold events.
  split_try; cbn [fmap list_fmap snd];
    repeat (constructor;
            [let m := fresh in let Heq := fresh in
             intros m Heq;
             first [ discriminate Heq
                   | injection Heq as <-; first [reflexivity | discriminate] ]|]);
    constructor.
Qed.

(** X3: every error [run] logs has the empty message when [quiet_error] is
    on, and a message with the exception and the hint when it is off. *)
Theorem run_error_messages rt environ m :
  Log ERROR m ∈ events (run self rt (fresh environ)).2 →
  if quiet_error (args self) then m = msg_empty else m ≠ msg_empty.
Proof.
  rewrite elem_of_run_events by done. intros Hin.
  pose proof (run_try_error_messages rt environ) as Hall.
  rewrite Forall_forall in Hall. by apply (Hall _ Hin).
Qed.

Lemma run_try_flags_at_calls rt environ :
  Forall (fun p =>
            (p.2 ∈ [Construct; Setup] →
               is_ready p.1 = false ∧ is_shutdown p.1 = false) ∧
            (p.2 ∈ [RunForever; Teardown] →
               is_ready p.1 = true ∧ is_shutdown p.1 = false))
         (history (run_try self rt (fresh environ)).2).
Proof.
  destruct rt as [n s r t].
  split_try;
    repeat (constructor;
            [split;
             (let Hin := fresh in
              intros Hin;
              first [ exfalso; revert Hin; decide_goal
                    | split; reflexivity ])|]);
    constructor.
Qed.

(** X4: the runtime class is instantiated and [setup()] is called with both
    flags unset; [run_forever()] and [teardown()] are called with [is_ready]
    set and [is_shutdown] unset. *)
Theorem run_flags_at_calls rt environ n ev :
  (n, ev) ∈ history (run self rt (fresh environ)).2 →
  (ev ∈ [Construct; Setup] → is_ready n = false ∧ is_shutdown n = false) ∧
  (ev ∈ [RunForever; Teardown] → is_ready n = true ∧ is_shutdown n = false).
Proof.
  rewrite run_history, elem_of_app. intros [Hin|Hin].
  - pose proof (run_try_flags_at_calls rt environ) as Hall.
    rewrite Forall_forall in Hall. apply (Hall _ Hin).
  - rewrite !elem_of_cons, elem_of_nil in Hin.
    destruct Hin as [[= _ ->]|[[= _ ->]|[[= _ ->]|[]]]];
      split; intros Hev; exfalso; revert Hev; decide_goal.
Qed.
End MoreWorker.

Lemma run_error_messages_witness :
  msg_during (OtherException "OSError") runtime_setup ≠ msg_empty.
Proof.
  apply (@run_error_messages sample_excepts
           (sample_pea (sample_args PROCESS None false)) failing_setup ∅).
  decide_goal.
Defined.

Lemma run_flags_at_calls_witness :
  let n := {| is_ready := true; is_shutdown := false;
              os_environ := ∅; process_env := ∅ |} in
  is_ready n = true ∧ is_shutdown n = false.
Proof.
  cbv zeta.
  apply (proj2 (@run_flags_at_calls sample_excepts
                  (sample_pea (sample_args PROCESS None false))
                  serving_runtime ∅ _ RunForever
                  ltac:(vm_compute; find_elem)));
    decide_goal.
Defined.

(** ** The environment, again *)

Section MoreEnv.
Context `{Excepts}.
Variable self : Pea.

(** Every snapshot of the [try] statement has the environment [run] began
    with, or that environment updated with [_envs]. *)
Lemma run_try_env_cases rt environ :
  let w := (run_try self rt (fresh environ)).2 in
  Forall (fun p =>
            (os_environ p.1 = environ ∧ process_env p.1 = environ) ∨
            (os_environ p.1 = _envs self ∪ environ ∧
             process_env p.1 = _envs self ∪ environ))
         (history w) ∧
  os_environ (now w) =
    (if applied self
     then match new rt with
          | None => _envs self ∪ environ
          | Some _ => environ
          end
     else environ) ∧
  process_env (now w) = os_environ (now w).
Proof.
  destruct rt as [n s r t]. unfold applied. cbv zeta.
  split_try;
    (split;
     [repeat (constructor; [first [left; split; reflexivity
                                  | right; split; reflexivity]|]);
      constructor
     |split; reflexivity]).
Qed.

Lemma union_lookup_frame (d m : gmap string string) k :
  d !! k = None → (d ∪ m) !! k = m !! k.
Proof. intros Hk. by apply lookup_union_r. Qed.

(** X5: a variable that is not a key of [_envs] has, at every point of
    [run], in [os.environ] and in the environment of the process, the value
    it had when [run] began. *)
Theorem run_env_frame rt environ k n :
  _envs self !! k = None →
  n ∈ points (run self rt (fresh environ)).2 →
  os_environ n !! k = environ !! k ∧ process_env n !! k = environ !! k.
Proof.
  intros Hk.
  destruct (run_try_env_cases rt environ) as (Hall & Ho & Hp).
  rewrite Forall_forall in Hall.
  set (w := (run_try self rt (fresh environ)).2) in *.
  assert (Hnow : os_environ (now w) !! k = environ !! k ∧
                 process_env (now w) !! k = environ !! k).
  { rewrite Hp, Ho. destruct (applied self), (new rt);
      by rewrite ?union_lookup_frame. }
  assert (Hunset : ∀ m, process_env m !! k = environ !! k →
                        process_env (envs_unset self m) !! k = environ !! k).
  { intros m Hm. destruct (runtime_backend (args self)) eqn:Hb.
    - by rewrite envs_unset_thread.
    - rewrite envs_unset_process by done.
      rewrite decide_False; [done|]. rewrite Hk. by intros [? ?]. }
  unfold points. rewrite run_history, run_now. fold w.
  rewrite elem_of_app, list_elem_of_fmap, elem_of_cons, elem_of_nil.
  intros [([n' ev] & -> & Hin)|[->|[]]].
  - rewrite elem_of_app, !elem_of_cons, elem_of_nil in Hin.
    destruct Hin as [Hin|[[= -> _]|[[= -> _]|[[= -> _]|[]]]]]; try exact Hnow.
    destruct (Hall _ Hin) as [[Ho' Hp']|[Ho' Hp']]; cbn [fst] in *;
      rewrite Ho', Hp'; by rewrite ?union_lookup_frame.
  - destruct (envs_unset_flags self
                (set_is_ready false (set_is_shutdown true (now w))))
      as (_ & _ & Hos).
    rewrite Hos. split; [apply Hnow|]. apply Hunset. apply Hnow.
Qed.

End MoreEnv.


Lemma run_env_frame_witness :
  let pea := sample_pea (sample_args PROCESS (Some {["MODEL" := "bert"]}) false) in
  let inherited : gmap string string := {["HOME" := "/root"]} in
  let w := (@run sample_excepts pea serving_runtime (fresh inherited)).2 in
  os_environ (now w) !! "HOME" = inherited !! "HOME" ∧
  process_env (now w) !! "HOME" = inherited !! "HOME".
Proof.
  cbv zeta.
  apply (@run_env_frame sample_excepts
           (sample_pea (sample_args PROCESS (Some {["MODEL" := "bert"]}) false))
           serving_runtime {["HOME" := "/root"]} "HOME").
  - by vm_compute.
  - unfold points. apply elem_of_app. right. apply list_elem_of_here.
Defined.


(** ** [__init__] *)

(** X7: in [_envs], an entry of a non-empty [args.env] wins; a key that
    [args.env] does not have is [JINA_POD_NAME] with the name of the Pea,
    [JINA_LOG_ID] with the identity, [JINA_LOG_CONFIG] with [QUIET] when
    [args.quiet] is on, and is absent otherwise. *)
Theorem init_envs_lookup a k :
  init_envs a !! k =
  match (if dict_truthy (env a) then default ∅ (env a) !! k else None) with
  | Some v => Some v
  | None =>
      if decide (k = "JINA_POD_NAME") then Some (pea_name a)
      else if decide (k = "JINA_LOG_ID") then Some (identity a)
      else if decide (k = "JINA_LOG_CONFIG")
           then (if quiet a then Some "QUIET" else None)
           else None
  end.
Proof.
  unfold init_envs. cbv zeta.
  assert (Hbase : ∀ k,
    (if quiet a
     then <["JINA_LOG_CONFIG":="QUIET"]>
            (<["JINA_LOG_ID":=identity a]>
               (<["JINA_POD_NAME":=pea_name a]> (∅ : gmap string string)))
     else <["JINA_LOG_ID":=identity a]>
            (<["JINA_POD_NAME":=pea_name a]> (∅ : gmap string string)))
      !! k =
    if decide (k = "JINA_POD_NAME") then Some (pea_name a)
    else if decide (k = "JINA_LOG_ID") then Some (identity a)
    else if decide (k = "JINA_LOG_CONFIG")
         then (if quiet a then Some "QUIET" else None)
         else None).
  { intros k'. destruct (quiet a); repeat case_decide; by simplify_map_eq. }
  destruct (dict_truthy (env a)).
  - destruct (default ∅ (env a) !! k) as [v|] eqn:Hk.
    + by apply lookup_union_Some_l.
    + rewrite lookup_union_r by done. apply Hbase.
  - apply Hbase.
Qed.

(** [_envs] always holds the two identity keys. *)
Lemma init_envs_identity a :
  is_Some (init_envs a !! "JINA_POD_NAME") ∧
  is_Some (init_envs a !! "JINA_LOG_ID").
Proof.
  unfold init_envs. cbv zeta.
  assert (Hbase :
    is_Some ((if quiet a
              then <["JINA_LOG_CONFIG":="QUIET"]>
                     (<["JINA_LOG_ID":=identity a]>
                        (<["JINA_POD_NAME":=pea_name a]>
                           (∅ : gmap string string)))
              else <["JINA_LOG_ID":=identity a]>
                     (<["JINA_POD_NAME":=pea_name a]>
                        (∅ : gmap string string))) !! "JINA_POD_NAME") ∧
    is_Some ((if quiet a
              then <["JINA_LOG_CONFIG":="QUIET"]>
                     (<["JINA_LOG_ID":=identity a]>
                        (<["JINA_POD_NAME":=pea_name a]>
                           (∅ : gmap string string)))
              else <["JINA_LOG_ID":=identity a]>
                     (<["JINA_POD_NAME":=pea_name a]>
                        (∅ : gmap string string))) !! "JINA_LOG_ID")).
  { destruct (quiet a); split; by simplify_map_eq. }
  destruct (dict_truthy (env a)); [|done].
  destruct Hbase as [[v1 H1] [v2 H2]].
  split; apply lookup_union_is_Some; right; by eexists.
Qed.

Section Identity.
Context `{Excepts}.
Variable self : Pea.

(** X8: the [_envs] that [__init__] builds is never empty, so the test of
    [_envs] in [_unset_envs] never fails: on a [PROCESS] backend, whatever
    [args.env] is, [run] ends with [JINA_POD_NAME] and [JINA_LOG_ID] unset in
    the environment of the process. *)
Theorem run_unsets_identity a rt environ :
  runtime_backend (args self) = PROCESS →
  _envs self = init_envs a →
  let w := (run self rt (fresh environ)).2 in
  _envs self ≠ ∅ ∧
  process_env (now w) !! "JINA_POD_NAME" = None ∧
  process_env (now w) !! "JINA_LOG_ID" = None.
Proof.
  intros Hb He. cbv zeta.
  destruct (init_envs_identity a) as [Hpod Hlog]. rewrite <- He in Hpod, Hlog.
  split; [|split].
  - intros Hempty. rewrite Hempty, lookup_empty in Hpod. by destruct Hpod.
  - rewrite run_now, envs_unset_process by done. by rewrite decide_True.
  - rewrite run_now, envs_unset_process by done. by rewrite decide_True.
Qed.
End Identity.


Lemma run_unsets_identity_witness :
  let a := sample_args PROCESS (Some {["MODEL" := "bert"]}) false in
  let inherited : gmap string string := {["JINA_LOG_ID" := "outer"]} in
  let w := (@run sample_excepts (sample_pea a) serving_runtime
              (fresh inherited)).2 in
  inherited !! "JINA_LOG_ID" = Some "outer" ∧
  process_env (now w) !! "JINA_LOG_ID" = None.
Proof.
  cbv zeta. split; [by vm_compute|].
  apply (@run_unsets_identity sample_excepts
           (sample_pea (sample_args PROCESS (Some {["MODEL" := "bert"]}) false))
           (sample_args PROCESS (Some {["MODEL" := "bert"]}) false)
           serving_runtime {["JINA_LOG_ID" := "outer"]});
    reflexivity.
Defined.

Section MoreSelection.
Context {RuntimeCls : Type}.
Variable __default_host__ : string.
Variable get_runtime : string -> result RuntimeCls.
Variable get_ctrl_address : option string -> option Z -> bool -> string.

Lemma set_runtime_cls_same a : set_runtime_cls a (runtime_cls a) = a.
Proof. by destruct a. Qed.

(** What [_get_runtime_cls] leaves in [args.runtime_cls]. *)
Lemma _get_runtime_cls_args a :
  (_get_runtime_cls __default_host__ get_runtime a).2 =
  set_runtime_cls a
    (if bool_decide (host a = __default_host__)
     then if bool_decide (runtime_cls a = "ZEDRuntime")
             && String.prefix "docker://" (uses a)
          then "ContainerRuntime" else runtime_cls a
     else "JinadRuntime").
Proof.
  unfold _get_runtime_cls.
  destruct (bool_decide (host a = __default_host__)); cbn [negb].
  - destruct (_ && _); destruct (get_runtime _); cbn;
      by rewrite ?set_runtime_cls_same.
  - cbn [runtime_cls set_runtime_cls].
    rewrite (bool_decide_eq_false_2 ("JinadRuntime" = "ZEDRuntime")) by done.
    cbn [andb]. by destruct (get_runtime _).
Qed.

Lemma _get_runtime_cls_result a :
  (_get_runtime_cls __default_host__ get_runtime a).1 =
  match get_runtime
          (runtime_cls (_get_runtime_cls __default_host__ get_runtime a).2) with
  | Ok v => Ok (v, negb (bool_decide (host a = __default_host__)))
  | Raise e => Raise e
  end.
Proof.
  unfold _get_runtime_cls.
  destruct (bool_decide (host a = __default_host__)); cbn [negb].
  - destruct (_ && _); cbn [runtime_cls set_runtime_cls];
      destruct (get_runtime _) eqn:Hg;
      cbn [fst snd runtime_cls set_runtime_cls]; by rewrite Hg.
  - cbn [runtime_cls set_runtime_cls].
    rewrite (bool_decide_eq_false_2 ("JinadRuntime" = "ZEDRuntime")) by done.
    cbn [andb runtime_cls set_runtime_cls].
    destruct (get_runtime _) eqn:Hg;
      cbn [fst snd runtime_cls set_runtime_cls]; by rewrite Hg.
Qed.

Lemma _get_runtime_cls_args_again a :
  (_get_runtime_cls __default_host__ get_runtime
     (_get_runtime_cls __default_host__ get_runtime a).2).2
  = (_get_runtime_cls __default_host__ get_runtime a).2.
Proof.
  rewrite !_get_runtime_cls_args. cbn [host runtime_cls uses set_runtime_cls].
  destruct (bool_decide (host a = __default_host__)); [|done].
  destruct (bool_decide (runtime_cls a = "ZEDRuntime")) eqn:Hz;
    cbn [andb]; [|by rewrite Hz].
  destruct (String.prefix "docker://" (uses a)) eqn:Hp.
  - by rewrite (bool_decide_eq_false_2 ("ContainerRuntime" = "ZEDRuntime")).
  - rewrite Hz. cbn [andb]. done.
Qed.

(** X9: [_get_runtime_cls] is idempotent: called again on the [args] it
    left, it returns the same class and flag and leaves [args] as they
    are. *)
Theorem _get_runtime_cls_idempotent a :
  _get_runtime_cls __default_host__ get_runtime
    (_get_runtime_cls __default_host__ get_runtime a).2
  = _get_runtime_cls __default_host__ get_runtime a.
Proof.
  apply injective_projections; [|apply _get_runtime_cls_args_again].
  rewrite (_get_runtime_cls_result a).
  rewrite (_get_runtime_cls_result (_ a).2).
  rewrite _get_runtime_cls_args_again.
  assert (Hhost : host (_get_runtime_cls __default_host__ get_runtime a).2
                  = host a) by (by rewrite _get_runtime_cls_args).
  by rewrite Hhost.
Qed.

(** X10: when [uses] starts with [docker://], the name left in
    [args.runtime_cls] is never [ZEDRuntime]. *)
Theorem _get_runtime_cls_docker a :
  String.prefix "docker://" (uses a) = true →
  runtime_cls (_get_runtime_cls __default_host__ get_runtime a).2
    ≠ "ZEDRuntime".
Proof.
  intros Hp. rewrite _get_runtime_cls_args. cbn [runtime_cls set_runtime_cls].
  rewrite Hp, andb_true_r.
  destruct (bool_decide (host a = __default_host__)); [|done].
  destruct (bool_decide (runtime_cls a = "ZEDRuntime")) eqn:Hz; [done|].
  by apply bool_decide_eq_false in Hz.
Qed.

(** X11: on a host that is not the default one, [__init__] asks
    [get_runtime] for [JinadRuntime] only: it fails exactly with what
    [get_runtime] raises for that name, whatever name was requested, and
    otherwise builds a remotely controlled Pea with [JinadRuntime] in
    [args.runtime_cls], the wildcard control address and the [_envs] of the
    [args] given. *)
Theorem __init___remote_host a :
  host a ≠ __default_host__ →
  match get_runtime "JinadRuntime" with
  | Raise e =>
      __init__ __default_host__ get_runtime get_ctrl_address a = Raise e
  | Ok _ =>
      ∃ pea,
        __init__ __default_host__ get_runtime get_ctrl_address a = Ok pea ∧
        runtime_cls (args pea) = "JinadRuntime" ∧
        _is_remote_controlled pea = true ∧
        _remote_ctrl_addr pea = get_ctrl_address None None true ∧
        _envs pea = init_envs a
  end.
Proof.
  intros Hh. unfold __init__.
  pose proof (_get_runtime_cls_result a) as Hr.
  pose proof (_get_runtime_cls_args a) as Ha.
  rewrite (bool_decide_eq_false_2 _ Hh) in Hr, Ha. cbn [negb] in Hr.
  destruct (_get_runtime_cls __default_host__ get_runtime a) as [r a'].
  cbn [fst snd] in Hr, Ha. subst a'. cbn [runtime_cls set_runtime_cls] in Hr.
  subst r. destruct (get_runtime "JinadRuntime"); [|done].
  eexists. split; [reflexivity|]. done.
Qed.
End MoreSelection.

Lemma _get_runtime_cls_docker_witness :
  runtime_cls
    (_get_runtime_cls "0.0.0.0" (fun cls => Ok cls)
       (with_host_uses (sample_args PROCESS None false)
          "0.0.0.0" "docker://image")).2
  ≠ "ZEDRuntime".
Proof.
  apply (_get_runtime_cls_docker "0.0.0.0" (fun cls => Ok cls)). reflexivity.
Defined.

Lemma __init___remote_host_witness :
  let a := with_host_uses (sample_args PROCESS None false)
             "remote.example" "executor://foo" in
  ∃ pea,
    __init__ "0.0.0.0" (fun cls => Ok cls) sample_ctrl_address a = Ok pea ∧
    runtime_cls (args pea) = "JinadRuntime" ∧
    _is_remote_controlled pea = true ∧
    _remote_ctrl_addr pea = sample_ctrl_address None None true ∧
    _envs pea = init_envs a.
Proof.
  cbv zeta.
  apply (__init___remote_host "0.0.0.0" (fun cls : string => Ok cls)
           sample_ctrl_address
           (with_host_uses (sample_args PROCESS None false)
              "remote.example" "executor://foo")).
  discriminate.
Defined.

(** ** [close], [wait_start_success] and [start] *)

Ltac since_known :=
  unfold since; cbn [actions world];
  rewrite <- ?app_assoc;
  first [rewrite drop_app_length | rewrite drop_all]; cbn [app].

Section SignalPlan.
Context `{Excepts} `{World W}.

Lemma close_signals_plan (self : Pea) fuel (o : Owner W) r o' :
  close self fuel o = Some (r, o') →
  ∃ k, filter (fun a => is_signal a = true) (since o o')
       = take k (signal_plan self).
Proof.
  destruct o as [w acts]. unfold signal_plan, cancel_addr.
  split_owner; try discriminate; intros [= <- <-]; since_known;
    first [ by exists 0%nat | by exists 1%nat | by exists 2%nat ].
Qed.

End SignalPlan.

Section MoreOwner.
Context `{Excepts} `{World W}.
Variable self : Pea.




(** X15: with [args.daemon] on, [close] never joins the worker without a
    timeout. With [args.daemon] off, a [close] that found the Pea serving
    returns only when the worker is no longer alive. *)
Theorem close_joins fuel (o : Owner W) r o' :
  close self fuel o = Some (r, o') →
  (daemon (args self) = true → Join None ∉ since o o') ∧
  (daemon (args self) = false → serving_after_grace (world o) = true →
   r = Ok () → is_alive (world o') = false).
Proof.
  destruct o as [w acts]. unfold serving_after_grace, after_grace.
  split_owner; try discriminate; intros [= <- <-]; since_known;
    (split;
     [ let Hd := fresh in
       intros Hd; first [ discriminate Hd | decide_goal ]
     | let Hd := fresh in let Hs := fresh in let Hr := fresh in
       intros Hd Hs Hr;
       first [ discriminate Hd | discriminate Hs | discriminate Hr
             | match goal with
               | Hw : wait_forever _ _ _ = Some ?x |- is_alive ?x = false =>
                   apply wait_forever_holds in Hw;
                   by destruct (is_alive x)
               end ] ]).
Qed.


End MoreOwner.




Lemma close_joins_witness :
  let o := begin Serving None in
  ∃ o',
    @close sample_excepts Mock mock_world (dealer_pea false) 5 o
      = Some (Ok (), o') ∧
    @is_alive Mock mock_world (world o') = false.
Proof.
  cbv zeta. eexists. split; [vm_compute; reflexivity|].
  refine (proj2 (@close_joins sample_excepts Mock mock_world
                   (dealer_pea false) 5%nat (begin Serving None) (Ok ()) _ _)
            _ _ _).
  - vm_compute. reflexivity.
  - reflexivity.
  - reflexivity.
  - reflexivity.
Defined.



Section InitClose.
Context `{Excepts} `{World W}.
Context {RuntimeCls : Type}.
Variable __default_host__ : string.
Variable get_runtime : string -> result RuntimeCls.
Variable get_ctrl_address : option string -> option Z -> bool -> string.

Lemma __init___fields a pea :
  __init__ __default_host__ get_runtime get_ctrl_address a = Ok pea →
  _is_remote_controlled pea = negb (bool_decide (host a = __default_host__)) ∧
  _runtime_ctrl_addr pea =
    get_ctrl_address (Some (host a)) (Some (port_ctrl a)) (ctrl_with_ipc a) ∧
  _remote_ctrl_addr pea = get_ctrl_address None None true ∧
  _timeout_ctrl pea = timeout_ctrl a.
Proof.
  unfold __init__, _get_runtime_cls.
  destruct (bool_decide (host a = __default_host__)); cbn [negb].
  - destruct (_ && _); cbn [runtime_cls set_runtime_cls];
      destruct (get_runtime _); intros [= <-]; done.
  - cbn [runtime_cls set_runtime_cls].
    rewrite (bool_decide_eq_false_2 ("JinadRuntime" = "ZEDRuntime")) by done.
    cbn [andb runtime_cls set_runtime_cls].
    destruct (get_runtime _); intros [= <-]; done.
Qed.

(** X18: on a Pea that [__init__] built, [close] sends [cancel] with
    [args.timeout_ctrl] and to one address only: the control address of the
    host when the host is the default one, the wildcard address otherwise. *)
Theorem init_close_cancel_address a pea fuel (o : Owner W) r o' addr t :
  __init__ __default_host__ get_runtime get_ctrl_address a = Ok pea →
  close pea fuel o = Some (r, o') →
  Cancel addr t ∈ since o o' →
  addr = (if bool_decide (host a = __default_host__)
          then get_ctrl_address (Some (host a)) (Some (port_ctrl a))
                 (ctrl_with_ipc a)
          else get_ctrl_address None None true) ∧
  t = timeout_ctrl a.
Proof.
  intros Hinit Hclose Hin.
  destruct (__init___fields a pea Hinit) as (Hrem & Hloc & Hremote & Ht).
  destruct (close_signals_plan pea fuel o r o' Hclose) as [k Hk].
  assert (Hplan : Cancel addr t ∈ signal_plan pea).
  { apply (subseteq_take k). rewrite <- Hk.
    apply list_elem_of_filter. by split. }
  unfold signal_plan, cancel_addr in Hplan.
  rewrite Hrem, Hloc, Hremote, Ht in Hplan.
  destruct (_dealer pea), (bool_decide (host a = __default_host__));
    cbn [negb app] in Hplan;
    rewrite ?elem_of_cons, elem_of_nil in Hplan;
    repeat (destruct Hplan as [Heq|Hplan];
            [first [discriminate Heq | by injection Heq as -> ->]|]);
    done.
Qed.
End InitClose.


Lemma init_close_cancel_address_witness :
  let a := with_host_uses (sample_args PROCESS None false)
             "remote.example" "executor://foo" in
  let o := begin Serving None in
  ∃ pea r o',
    __init__ "0.0.0.0" (fun cls => Ok cls) sample_ctrl_address a = Ok pea ∧
    @close sample_excepts Mock mock_world pea 5 o = Some (r, o') ∧
    Cancel "ipc:///tmp/ctrl" 5000 ∈ since o o' ∧
    "ipc:///tmp/ctrl" =
      (if bool_decide (host a = "0.0.0.0")
       then sample_ctrl_address (Some (host a)) (Some (port_ctrl a))
              (ctrl_with_ipc a)
       else sample_ctrl_address None None true).
Proof.
  cbv zeta. eexists _, _, _.
  split; [vm_compute; reflexivity|]. split; [vm_compute; reflexivity|].
  split; [decide_goal|].
  refine (proj1 (@init_close_cancel_address sample_excepts Mock mock_world
                   string "0.0.0.0" (fun cls => Ok cls) sample_ctrl_address
                   (with_host_uses (sample_args PROCESS None false)
                      "remote.example" "executor://foo")
                   _ 5%nat (begin Serving None) _ _ _ 5000 _ _ _)).
  - vm_compute. reflexivity.
  - vm_compute. reflexivity.
  - decide_goal.
Defined.



Section StartProperties.
Context `{Excepts} `{World W}.
Variable worker_start : W -> W.
Variable self : Pea.

End StartProperties.

